(** * count-timers: the pause-aware timers of [counters/counters.py]

    A shallow embedding of the two classes [CountupTimer] and
    [CountdownTimer] and the properties of their start / pause / resume /
    reset bookkeeping.

    Conventions of the embedding.
    - An instant (a value of [time.time()]) and a span are integers: a number
      of clock ticks, with exact arithmetic.  Rounding of Python floats is not
      represented.
    - Every method that calls [time.time()] takes the value the clock returns
      during that call as its argument [now].  The class has no other source
      of instants.  [time.time()] counts from the epoch, so its readings are
      positive; a property that relies on this says so in a hypothesis on
      the start instant ([0 < s], [started_positive]).
    - An [Optional] attribute is an [option Z]; Python's truth test on such an
      attribute ([if self._time_started:]) is [truthy], which is false on
      [None] and on zero alike, while [is None] is a match on the
      constructor.
    - Arithmetic on [None] raises [TypeError]: methods that subtract an
      optional attribute live in the [result] monad. *)

From Stdlib Require Import ZArith Bool Lia List.
Import ListNotations.
Local Open Scope Z_scope.

(** ** Exceptions *)

Inductive result (A : Type) : Type :=
| Ok (a : A)
| TypeError.
Arguments Ok {A} a.
Arguments TypeError {A}.

Definition bind {A B : Type} (r : result A) (k : A -> result B) : result B :=
  match r with
  | Ok a => k a
  | TypeError => TypeError
  end.

Notation "'let*' x ':=' r 'in' k" := (bind r (fun x => k))
  (at level 10, x name, r at level 100, k at level 200).

Definition raises {A : Type} (r : result A) : bool :=
  match r with
  | Ok _ => false
  | TypeError => true
  end.

(** ** Python values *)

(** [bool(x)] for an attribute that holds [None] or a number. *)
Definition truthy (x : option Z) : bool :=
  match x with
  | None => false
  | Some v => negb (v =? 0)
  end.

(** [x is None]. *)
Definition is_None (x : option Z) : bool :=
  match x with
  | None => true
  | Some _ => false
  end.

(** [a - b] where [b] may be [None]. *)
Definition sub_opt_r (a : Z) (b : option Z) : result Z :=
  match b with
  | Some v => Ok (a - v)
  | None => TypeError
  end.

(** [a - b] where both may be [None]. *)
Definition sub_opt (a b : option Z) : result Z :=
  match a, b with
  | Some u, Some v => Ok (u - v)
  | _, _ => TypeError
  end.

(** [a + b] where [a] may be [None]. *)
Definition add_opt_l (a : option Z) (b : Z) : result Z :=
  match a with
  | Some u => Ok (u + b)
  | None => TypeError
  end.

(** [x or 0] on a number. *)
Definition or_zero (x : Z) : Z := if x =? 0 then 0 else x.

(** ** The timer object *)

(** The attributes [__init__] creates; both classes share them. *)
Record Timer : Type := mkTimer {
  _time_started : option Z;
  _time_paused : option Z;
  _elapsed : Z;
  _paused : bool;
  _duration : Z
}.

Module CountupTimer.

(** [duration] defaults to 0 in [__init__] and in [reset]; a caller who
    omits it passes 0 here. *)
Definition __init__ (duration : Z) : Timer :=
  {| _time_started := None;
     _time_paused := None;
     _elapsed := 0;
     _paused := true;
     _duration := duration |}.

(** [reset] calls [__init__] on the object itself: every attribute is
    overwritten. *)
Definition reset (duration : Z) (self : Timer) : Timer :=
  __init__ duration.

Definition start (now : Z) (self : Timer) : Timer :=
  if truthy (_time_started self) then self
  else {| _time_started := Some now;
          _time_paused := _time_paused self;
          _elapsed := _elapsed self;
          _paused := false;
          _duration := _duration self |}.

Definition pause (now : Z) (self : Timer) : Timer :=
  if _paused self || is_None (_time_started self) then self
  else {| _time_started := _time_started self;
          _time_paused := Some now;
          _elapsed := _elapsed self;
          _paused := true;
          _duration := _duration self |}.

Definition resume (now : Z) (self : Timer) : result Timer :=
  if negb (_paused self) || is_None (_time_started self) then Ok self
  else
    let* pause_duration := sub_opt_r now (_time_paused self) in
    let* started := add_opt_l (_time_started self) pause_duration in
    Ok {| _time_started := Some started;
          _time_paused := _time_paused self;
          _elapsed := _elapsed self;
          _paused := false;
          _duration := _duration self |}.

Definition _get (now : Z) (self : Timer) : result Z :=
  if negb (truthy (_time_started self)) then Ok 0
  else if _paused self then sub_opt (_time_paused self) (_time_started self)
  else sub_opt_r now (_time_started self).

Definition paused (self : Timer) : bool := _paused self.

Definition running (self : Timer) : bool := negb (_paused self).

Definition elapsed (now : Z) (self : Timer) : result Z :=
  let* got := _get now self in
  Ok (or_zero got).

Definition duration (self : Timer) : Z := _duration self.

Definition expired (now : Z) (self : Timer) : result bool :=
  let* e := elapsed now self in
  Ok (e >=? _duration self).

Definition remaining (now : Z) (self : Timer) : result Z :=
  let* got := _get now self in
  let time_left := _duration self - got in
  Ok (if time_left <=? duration self then time_left else 0).

End CountupTimer.

(** [CountdownTimer] inherits everything from [CountupTimer] and overrides
  the [remaining] property only. *)
Module CountdownTimer.

Definition __init__ := CountupTimer.__init__.
Definition reset := CountupTimer.reset.
Definition start := CountupTimer.start.
Definition pause := CountupTimer.pause.
Definition resume := CountupTimer.resume.
Definition _get := CountupTimer._get.
Definition paused := CountupTimer.paused.
Definition running := CountupTimer.running.
Definition elapsed := CountupTimer.elapsed.
Definition duration := CountupTimer.duration.
Definition expired := CountupTimer.expired.

Definition remaining (now : Z) (self : Timer) : result Z :=
  let* got := _get now self in
  let time_left := _duration self - got in
  Ok (Z.max time_left 0).

End CountdownTimer.

(** ** Histories of calls *)

(** The state-changing methods, as a caller issues them. *)
Inductive call : Type :=
| Start
| Pause
| Resume
| Reset (duration : Z).

Definition step (now : Z) (c : call) (self : Timer) : result Timer :=
  match c with
  | Start => Ok (CountupTimer.start now self)
  | Pause => Ok (CountupTimer.pause now self)
  | Resume => CountupTimer.resume now self
  | Reset d => Ok (CountupTimer.reset d self)
  end.

(** A history is a list of calls, each with the clock reading during it. *)
Fixpoint run (history : list (Z * call)) (self : Timer) : result Timer :=
  match history with
  | [] => Ok self
  | (now, c) :: rest =>
      let* self' := step now c self in
      run rest self'
  end.

(** [reachable c t]: [t] is the state of a timer after construction and some
    calls, none of which raised, made while the clock went from reading to
    reading without decreasing; [c] is the last reading (any reading, for a
    timer just constructed). *)
Inductive reachable : Z -> Timer -> Prop :=
| reach_init (c d : Z) :
    reachable c (CountupTimer.__init__ d)
| reach_step (c now : Z) (k : call) (t t' : Timer) :
    reachable c t ->
    c <= now ->
    step now k t = Ok t' ->
    reachable now t'.

(** The invariant of reachable states: a timer that was never started is
    paused and has no pause instant; the start instant is not in the future;
    a paused, started timer has a pause instant between its start instant
    and the present; [_elapsed] stays 0. *)
Record Inv (c : Z) (t : Timer) : Prop := {
  inv_unstarted :
    _time_started t = None -> _paused t = true /\ _time_paused t = None;
  inv_started :
    forall s, _time_started t = Some s -> s <= c;
  inv_paused :
    forall s, _paused t = true -> _time_started t = Some s ->
      exists p, _time_paused t = Some p /\ s <= p /\ p <= c;
  inv_elapsed :
    _elapsed t = 0
}.

(** The clock readings of a history never go back, starting from [c]. *)
Fixpoint nondecreasing (c : Z) (history : list (Z * call)) : bool :=
  match history with
  | [] => true
  | (now, _) :: rest => (c <=? now) && nondecreasing now rest
  end.

(** The last clock reading of a history that starts at reading [c]. *)
Fixpoint last_reading (c : Z) (history : list (Z * call)) : Z :=
  match history with
  | [] => c
  | (now, _) :: rest => last_reading now rest
  end.

(** ** Construction, as the specification words it *)

(** The state the specification gives a freshly constructed timer: start
    instant absent, pause instant absent, paused, the given duration, zero
    elapsed.  It is compared below with what [__init__] and [reset] build. *)
Definition construct_spec (d : Z) : Timer :=
  {| _time_started := None;
     _time_paused := None;
     _elapsed := 0;
     _paused := true;
     _duration := d |}.

(** ** Sample timers *)

(** [CountupTimer(10)], started while the clock read 1, paused at 4. *)
Definition paused_at_4 : Timer :=
  CountupTimer.pause 4 (CountupTimer.start 1 (CountupTimer.__init__ 10)).

(** [CountupTimer(5)], started while the clock read 1, paused at 10: nine
    ticks elapsed against a duration of five. *)
Definition overrun : Timer :=
  CountupTimer.pause 10 (CountupTimer.start 1 (CountupTimer.__init__ 5)).

(** [CountupTimer(10)], started while the clock read 1 and running. *)
Definition running_since_1 : Timer :=
  CountupTimer.start 1 (CountupTimer.__init__ 10).

(** ** Calls that keep the configuration *)

(** [reset] is the one call that rebuilds the object. *)
Definition is_reset (k : call) : bool :=
  match k with
  | Reset _ => true
  | _ => false
  end.

(** No call of the history is a [reset]. *)
Definition no_reset (history : list (Z * call)) : bool :=
  forallb (fun e => negb (is_reset (snd e))) history.

(** The start instant, when there is one, is a positive clock reading. *)
Definition started_positive (t : Timer) : bool :=
  match _time_started t with
  | Some s => 0 <? s
  | None => true
  end.

(** The state in which [resume] has what it subtracts: a paused, started
    timer holds a pause instant. *)
Definition pause_recorded (t : Timer) : bool :=
  negb (_paused t && negb (is_None (_time_started t))
        && is_None (_time_paused t)).

(** ** The docstring of [_get], as a ledger *)

(** [_get] documents its result as the time "since timer was started, minus
    any time paused".  The ledger keeps exactly the quantities of that
    sentence: the instant of the first start, the instant at which the pause
    in progress began, and the total span of the pauses already over. *)
Record Ledger : Type := mkLedger {
  first_start : option Z;
  paused_since : option Z;
  paused_total : Z
}.

Definition ledger_init : Ledger :=
  {| first_start := None; paused_since := None; paused_total := 0 |}.

(** How each call is entered in the ledger: a start counts once; a pause
    counts on a started timer that is not paused; a resume closes the pause
    in progress and adds its span to the total. *)
Definition ledger_step (now : Z) (k : call) (g : Ledger) : Ledger :=
  match k with
  | Start =>
      match first_start g with
      | None =>
          {| first_start := Some now; paused_since := None; paused_total := 0 |}
      | Some _ => g
      end
  | Pause =>
      match first_start g, paused_since g with
      | Some s0, None =>
          {| first_start := Some s0;
             paused_since := Some now;
             paused_total := paused_total g |}
      | _, _ => g
      end
  | Resume =>
      match first_start g, paused_since g with
      | Some s0, Some p =>
          {| first_start := Some s0;
             paused_since := None;
             paused_total := paused_total g + (now - p) |}
      | _, _ => g
      end
  | Reset _ => ledger_init
  end.

Fixpoint ledger_run (history : list (Z * call)) (g : Ledger) : Ledger :=
  match history with
  | [] => g
  | (now, k) :: rest => ledger_run rest (ledger_step now k g)
  end.

(** Time since the timer was started, minus any time paused (the pause in
    progress included). *)
Definition ledger_elapsed (now : Z) (g : Ledger) : Z :=
  match first_start g with
  | None => 0
  | Some s0 =>
      now - s0
      - (paused_total g
         + match paused_since g with
           | Some p => now - p
           | None => 0
           end)
  end.

(** The timer is paused, by the ledger: never started, or in a pause. *)
Definition ledger_paused (g : Ledger) : bool :=
  match first_start g, paused_since g with
  | Some _, None => false
  | _, _ => true
  end.

(** How a timer and a ledger of the same history correspond, [c] being the
    last clock reading. *)
Definition Sim (c : Z) (g : Ledger) (t : Timer) : Prop :=
  match first_start g with
  | None =>
      _time_started t = None /\ _paused t = true /\ paused_since g = None
  | Some s0 =>
      0 < s0 /\ 0 <= paused_total g /\
      _time_started t = Some (s0 + paused_total g) /\
      match paused_since g with
      | None => _paused t = false
      | Some p => _paused t = true /\ _time_paused t = Some p /\ p <= c
      end
  end.

(** ** Basic facts about the Python values *)

Lemma or_zero_id (x : Z) : or_zero x = x.
Proof.
  unfold or_zero. destruct (Z.eqb_spec x 0) as [-> | _]; reflexivity.
Qed.

Lemma truthy_Some (v : Z) : truthy (Some v) = true <-> v <> 0.
Proof.
  simpl. destruct (Z.eqb_spec v 0); simpl; split; intros; congruence.
Qed.

(** [elapsed] is [_get]: [got or 0] is [got] on a number. *)
Lemma elapsed_is_get (now : Z) (t : Timer) :
  CountupTimer.elapsed now t = CountupTimer._get now t.
Proof.
  unfold CountupTimer.elapsed.
  destruct (CountupTimer._get now t) as [g | ]; simpl; [ | reflexivity ].
  now rewrite or_zero_id.
Qed.

(** ** The invariant is kept by every call *)

Lemma Inv_init (c d : Z) : Inv c (CountupTimer.__init__ d).
Proof.
  constructor; simpl; intros; try discriminate; auto.
Qed.

(** After a case analysis on the attributes, each field of [Inv] is a fact
    of linear arithmetic over the instants at hand. *)
Ltac inv_field :=
  simpl in *; intros;
  repeat match goal with
         | H : Some _ = Some _ |- _ => injection H as H; subst
         | H : forall s, Some ?x = Some s -> _ |- _ => specialize (H x eq_refl)
         | H : forall s, true = true -> Some ?x = Some s -> _ |- _ =>
             specialize (H x eq_refl eq_refl)
         | H : None = None -> _ |- _ => specialize (H eq_refl)
         | H : exists p, _ |- _ => destruct H as (? & ? & ? & ?)
         | H : _ /\ _ |- _ => destruct H
         end;
  try discriminate; try congruence;
  try (split; [ congruence | congruence ]);
  try lia;
  try (eexists; split; [ eassumption || reflexivity | lia ]).

Lemma Inv_start (c now : Z) (t : Timer) :
  Inv c t -> c <= now -> Inv now (CountupTimer.start now t).
Proof.
  intros [Hu Hs Hp He] Hle. unfold CountupTimer.start.
  destruct t as [[s | ] tp el pa d]; simpl in *.
  - destruct (s =? 0); simpl; constructor; inv_field.
  - constructor; inv_field.
Qed.

Lemma Inv_pause (c now : Z) (t : Timer) :
  Inv c t -> c <= now -> Inv now (CountupTimer.pause now t).
Proof.
  intros [Hu Hs Hp He] Hle. unfold CountupTimer.pause.
  destruct t as [[s | ] tp el [ | ] d]; simpl in *; constructor; inv_field.
Qed.

Lemma Inv_resume (c now : Z) (t t' : Timer) :
  Inv c t -> c <= now -> CountupTimer.resume now t = Ok t' -> Inv now t'.
Proof.
  intros [Hu Hs Hp He] Hle. unfold CountupTimer.resume.
  destruct t as [[s | ] [p | ] el [ | ] d]; simpl in *;
    intros [= <-]; constructor; inv_field.
Qed.

Lemma Inv_step (c now : Z) (k : call) (t t' : Timer) :
  Inv c t -> c <= now -> step now k t = Ok t' -> Inv now t'.
Proof.
  intros HI Hle. destruct k; simpl.
  - intros [= <-]. now apply Inv_start with c.
  - intros [= <-]. now apply Inv_pause with c.
  - intros Hr. exact (Inv_resume c now t t' HI Hle Hr).
  - intros [= <-]. apply Inv_init.
Qed.

Lemma reachable_Inv (c : Z) (t : Timer) : reachable c t -> Inv c t.
Proof.
  induction 1 as [c d | c now k t t' _ IH Hle Hstep].
  - apply Inv_init.
  - exact (Inv_step c now k t t' IH Hle Hstep).
Qed.

(** ** Totality on reachable states *)

Lemma resume_total (c now : Z) (t : Timer) :
  Inv c t -> exists t', CountupTimer.resume now t = Ok t'.
Proof.
  intros [Hu Hs Hp He]. unfold CountupTimer.resume.
  destruct t as [[s | ] [p | ] el [ | ] d]; simpl in *; eauto.
  destruct (Hp s eq_refl eq_refl) as (p & E & _). discriminate.
Qed.

Lemma step_total (c now : Z) (k : call) (t : Timer) :
  Inv c t -> exists t', step now k t = Ok t'.
Proof.
  intros HI. destruct k; simpl; eauto using resume_total.
Qed.

(** From a reachable state, a whole history under a non-decreasing clock
    runs to its end without raising, and ends in a reachable state. *)
Lemma run_total (history : list (Z * call)) (c : Z) (t : Timer) :
  reachable c t ->
  nondecreasing c history = true ->
  exists t', run history t = Ok t' /\ reachable (last_reading c history) t'.
Proof.
  revert c t. induction history as [ | [now k] rest IH]; intros c t Hr Hnd.
  - exists t. split; [ reflexivity | exact Hr ].
  - simpl in Hnd. apply andb_true_iff in Hnd. destruct Hnd as [Hle Hnd].
    apply Z.leb_le in Hle.
    destruct (step_total c now k t (reachable_Inv c t Hr)) as [t1 Ht1].
    simpl. rewrite Ht1. simpl.
    apply IH; [ | exact Hnd ].
    exact (reach_step c now k t t1 Hr Hle Ht1).
Qed.

Lemma get_nonneg (c now : Z) (t : Timer) :
  Inv c t -> c <= now -> exists g, CountupTimer._get now t = Ok g /\ 0 <= g.
Proof.
  intros [Hu Hs Hp He] Hle. unfold CountupTimer._get.
  destruct t as [[s | ] tp el pa d]; simpl in *.
  - specialize (Hs s eq_refl).
    destruct (s =? 0); simpl; [ exists 0; split; [ reflexivity | lia ] | ].
    destruct pa.
    + destruct (Hp s eq_refl eq_refl) as (p & -> & Hsp & _). simpl.
      exists (p - s). split; [ reflexivity | lia ].
    + exists (now - s). split; [ reflexivity | lia ].
  - exists 0. split; [ reflexivity | lia ].
Qed.

(** ** [elapsed], case by case *)

Lemma elapsed_unstarted (now : Z) (t : Timer) :
  _time_started t = None -> CountupTimer.elapsed now t = Ok 0.
Proof.
  intros E. rewrite elapsed_is_get. unfold CountupTimer._get.
  now rewrite E.
Qed.

Lemma elapsed_running (now s : Z) (t : Timer) :
  _time_started t = Some s -> s <> 0 -> _paused t = false ->
  CountupTimer.elapsed now t = Ok (now - s).
Proof.
  intros E Hs Hp. rewrite elapsed_is_get. unfold CountupTimer._get.
  rewrite E, Hp. apply truthy_Some in Hs. now rewrite Hs.
Qed.

Lemma elapsed_paused (now s p : Z) (t : Timer) :
  _time_started t = Some s -> s <> 0 -> _paused t = true ->
  _time_paused t = Some p ->
  CountupTimer.elapsed now t = Ok (p - s).
Proof.
  intros E Hs Hp Hq. rewrite elapsed_is_get. unfold CountupTimer._get.
  rewrite E, Hp, Hq. apply truthy_Some in Hs. now rewrite Hs.
Qed.

(** A start instant that reads zero is taken for "not started". *)
Lemma elapsed_zero_instant (now : Z) (t : Timer) :
  _time_started t = Some 0 -> CountupTimer.elapsed now t = Ok 0.
Proof.
  intros E. rewrite elapsed_is_get. unfold CountupTimer._get.
  now rewrite E.
Qed.

Lemma elapsed_nonneg (c now : Z) (t : Timer) :
  reachable c t -> c <= now ->
  exists e, CountupTimer.elapsed now t = Ok e /\ 0 <= e.
Proof.
  intros Hr Hle. rewrite elapsed_is_get.
  exact (get_nonneg c now t (reachable_Inv c t Hr) Hle).
Qed.

Lemma started_positive_Some (s : Z) (t : Timer) :
  started_positive t = true -> _time_started t = Some s -> 0 < s.
Proof.
  unfold started_positive. intros H E. rewrite E in H. now apply Z.ltb_lt.
Qed.

(** ** [start], [pause], [resume] where they do nothing *)

Lemma start_noop_truthy (now : Z) (t : Timer) :
  truthy (_time_started t) = true -> CountupTimer.start now t = t.
Proof.
  intros H. unfold CountupTimer.start. now rewrite H.
Qed.

Lemma start_noop_nonzero (now s : Z) (t : Timer) :
  _time_started t = Some s -> s <> 0 -> CountupTimer.start now t = t.
Proof.
  intros E Hs. apply start_noop_truthy. rewrite E. now apply truthy_Some.
Qed.

Lemma start_twice (now now' : Z) (t : Timer) :
  now <> 0 ->
  CountupTimer.start now' (CountupTimer.start now t) = CountupTimer.start now t.
Proof.
  intros Hn. unfold CountupTimer.start at 2 3.
  destruct (truthy (_time_started t)) eqn:E.
  - now apply start_noop_truthy.
  - apply start_noop_truthy. simpl. now apply truthy_Some.
Qed.

Lemma pause_noop (now : Z) (t : Timer) :
  _paused t = true \/ _time_started t = None -> CountupTimer.pause now t = t.
Proof.
  unfold CountupTimer.pause. intros [-> | ->]; simpl; [ reflexivity | ].
  now rewrite orb_true_r.
Qed.

Lemma resume_noop (now : Z) (t : Timer) :
  _paused t = false \/ _time_started t = None ->
  CountupTimer.resume now t = Ok t.
Proof.
  unfold CountupTimer.resume. intros [-> | ->]; simpl; [ reflexivity | ].
  now rewrite orb_true_r.
Qed.

(** ** [pause] then [resume] *)

Lemma pause_running (now s : Z) (t : Timer) :
  _time_started t = Some s -> _paused t = false ->
  CountupTimer.pause now t =
    mkTimer (Some s) (Some now) (_elapsed t) true (_duration t).
Proof.
  intros E Hp. unfold CountupTimer.pause. now rewrite E, Hp.
Qed.

Lemma resume_paused (now s p : Z) (t : Timer) :
  _time_started t = Some s -> _paused t = true -> _time_paused t = Some p ->
  CountupTimer.resume now t =
    Ok (mkTimer (Some (s + (now - p))) (Some p) (_elapsed t) false (_duration t)).
Proof.
  intros E Hp Hq. unfold CountupTimer.resume. now rewrite E, Hp, Hq.
Qed.

(** Away from the zero instant, the span of a pause does not count: the
    reading of [elapsed] at the resume is the reading at the pause. *)
Lemma pause_resume_elapsed (s t1 t2 : Z) (t : Timer) :
  _time_started t = Some s -> _paused t = false ->
  s <> 0 -> s + (t2 - t1) <> 0 ->
  exists t',
    CountupTimer.resume t2 (CountupTimer.pause t1 t) = Ok t' /\
    CountupTimer.elapsed t2 t' = CountupTimer.elapsed t1 t.
Proof.
  intros E Hp Hs Hs'.
  rewrite (pause_running t1 s t E Hp).
  eexists. split.
  - apply resume_paused; reflexivity.
  - rewrite (elapsed_running t1 s t E Hs Hp).
    rewrite (elapsed_running t2 (s + (t2 - t1))); simpl; auto.
    f_equal. lia.
Qed.

(** ** Histories *)

Lemma run_app (h1 h2 : list (Z * call)) (t : Timer) :
  run (h1 ++ h2) t = let* t' := run h1 t in run h2 t'.
Proof.
  revert t. induction h1 as [ | [now k] h1 IH]; intros t; simpl.
  - reflexivity.
  - destruct (step now k t) as [t1 | ]; simpl; [ apply IH | reflexivity ].
Qed.

(** ** Sample timers are reachable *)

Lemma reachable_start_pause (d s p : Z) :
  s <= p ->
  reachable p (CountupTimer.pause p (CountupTimer.start s (CountupTimer.__init__ d))).
Proof.
  intros Hsp.
  apply (reach_step s p Pause (CountupTimer.start s (CountupTimer.__init__ d)));
    [ | exact Hsp | reflexivity ].
  apply (reach_step s s Start (CountupTimer.__init__ d));
    [ apply reach_init | apply Z.le_refl | reflexivity ].
Defined.

Lemma reachable_start (d s : Z) :
  reachable s (CountupTimer.start s (CountupTimer.__init__ d)).
Proof.
  apply (reach_step s s Start (CountupTimer.__init__ d));
    [ apply reach_init | apply Z.le_refl | reflexivity ].
Defined.

(** ** The properties of the specification *)

(** C1: pause intervals are excluded from elapsed time.  For every started,
    running timer (its start instant [s] a reading of the clock, hence
    positive), [pause()] at an instant [t1] followed by [resume()] at any
    later instant [t2] returns normally, and [elapsed] read right after the
    [resume()] equals [elapsed] read right before the [pause()], namely
    [t1 - s]. *)
Theorem pause_span_excluded_from_elapsed (s t1 t2 : Z) (t : Timer) :
  _time_started t = Some s -> 0 < s ->
  CountupTimer.running t = true ->
  t1 <= t2 ->
  exists t',
    CountupTimer.resume t2 (CountupTimer.pause t1 t) = Ok t' /\
    CountupTimer.elapsed t2 t' = CountupTimer.elapsed t1 t /\
    CountupTimer.elapsed t1 t = Ok (t1 - s).
Proof.
  intros Hs Hpos Hrun Hle.
  unfold CountupTimer.running in Hrun. apply negb_true_iff in Hrun.
  destruct (pause_resume_elapsed s t1 t2 t Hs Hrun) as (t' & Hres & Heq);
    try lia.
  exists t'. repeat split; auto.
  apply elapsed_running; auto. lia.
Qed.

Lemma pause_span_excluded_from_elapsed_witness :
  exists t',
    CountupTimer.resume 9 (CountupTimer.pause 4 running_since_1) = Ok t' /\
    CountupTimer.elapsed 9 t' = CountupTimer.elapsed 4 running_since_1 /\
    CountupTimer.elapsed 4 running_since_1 = Ok (4 - 1).
Proof.
  apply (pause_span_excluded_from_elapsed 1 4 9 running_since_1);
    [ reflexivity | lia | reflexivity | lia ].
Defined.

(** C2, as the claim states it, fails: after start at 1, pause at 4 and
    resume at 9 the timer runs and [_time_paused] still holds 4. *)
Lemma resume_leaves_time_paused_set :
  CountupTimer.paused paused_at_4 = true /\
  _time_started paused_at_4 = Some 1 /\
  exists t',
    CountupTimer.resume 9 paused_at_4 = Ok t' /\
    CountupTimer.running t' = true /\
    _time_paused t' = Some 4 /\
    _time_paused t' <> None.
Proof.
  repeat split; try reflexivity.
  eexists. repeat split; try reflexivity. discriminate.
Qed.

(** C2, amended: [resume()] does not clear [_time_paused].  For every paused,
    started timer reached from construction, both instants are present, and
    [resume()] at [now] succeeds, moves the start instant forward by
    [now - _time_paused], clears [_paused], and leaves [_time_paused] (and
    the other attributes) as they were. *)
Theorem resume_keeps_time_paused (c now : Z) (t : Timer) :
  reachable c t ->
  CountupTimer.paused t = true ->
  is_None (_time_started t) = false ->
  exists s p,
    _time_started t = Some s /\
    _time_paused t = Some p /\
    CountupTimer.resume now t =
      Ok {| _time_started := Some (s + (now - p));
            _time_paused := Some p;
            _elapsed := _elapsed t;
            _paused := false;
            _duration := _duration t |}.
Proof.
  intros Hr Hp Hs. apply reachable_Inv in Hr.
  destruct (_time_started t) as [s | ] eqn:E; [ | discriminate ].
  destruct (inv_paused c t Hr s Hp E) as (p & Hq & _).
  exists s, p. repeat split; auto.
  now apply resume_paused.
Qed.

Lemma resume_keeps_time_paused_witness :
  reachable 4 paused_at_4 /\
  exists s p,
    _time_started paused_at_4 = Some s /\
    _time_paused paused_at_4 = Some p /\
    CountupTimer.resume 9 paused_at_4 =
      Ok {| _time_started := Some (s + (9 - p));
            _time_paused := Some p;
            _elapsed := _elapsed paused_at_4;
            _paused := false;
            _duration := _duration paused_at_4 |}.
Proof.
  assert (H : reachable 4 paused_at_4) by (apply reachable_start_pause; lia).
  split; [ exact H | ].
  apply (resume_keeps_time_paused 4 9 paused_at_4 H); reflexivity.
Defined.

(** C3: [CountupTimer.remaining] clamps on one side only.  Whenever
    [elapsed] reads [e], [remaining] is [duration - e] if that is at most
    [duration], and 0 if it exceeds [duration]; nothing clamps it from
    below, and some reachable timer with [elapsed > duration] has a negative
    [remaining]. *)
Theorem countup_remaining_one_sided_clamp (now : Z) (t : Timer) (e : Z) :
  CountupTimer.elapsed now t = Ok e ->
  (CountupTimer.duration t - e <= CountupTimer.duration t ->
   CountupTimer.remaining now t = Ok (CountupTimer.duration t - e)) /\
  (CountupTimer.duration t < CountupTimer.duration t - e ->
   CountupTimer.remaining now t = Ok 0) /\
  (exists c t' now' e' r,
     reachable c t' /\ c <= now' /\
     CountupTimer.elapsed now' t' = Ok e' /\
     CountupTimer.duration t' < e' /\
     CountupTimer.remaining now' t' = Ok r /\
     r < 0).
Proof.
  rewrite elapsed_is_get. intros Hg.
  unfold CountupTimer.remaining, CountupTimer.duration. rewrite Hg. simpl.
  repeat split.
  - intros H. apply Z.leb_le in H. now rewrite H.
  - intros H. apply Z.leb_gt in H. now rewrite H.
  - exists 10, overrun, 12, 9, (-4). repeat split; try reflexivity.
    + apply reachable_start_pause. lia.
    + lia.
Qed.

Lemma countup_remaining_one_sided_clamp_witness :
  CountupTimer.elapsed 12 overrun = Ok 9 /\
  CountupTimer.remaining 12 overrun = Ok (-4).
Proof.
  split; [ reflexivity | ].
  apply (countup_remaining_one_sided_clamp 12 overrun 9); [ reflexivity | ].
  simpl. lia.
Defined.

(** C4: [CountdownTimer.remaining] is never negative.  Whenever [elapsed]
    reads [e] (whatever its size against the duration), [remaining] is
    [max (duration - e) 0], which is at least 0. *)
Theorem countdown_remaining_nonneg (now : Z) (t : Timer) (e : Z) :
  CountdownTimer.elapsed now t = Ok e ->
  CountdownTimer.remaining now t = Ok (Z.max (CountdownTimer.duration t - e) 0) /\
  0 <= Z.max (CountdownTimer.duration t - e) 0.
Proof.
  unfold CountdownTimer.elapsed. rewrite elapsed_is_get. intros Hg.
  unfold CountdownTimer.remaining, CountdownTimer._get.
  rewrite Hg. simpl. split; [ reflexivity | apply Z.le_max_r ].
Qed.

Lemma countdown_remaining_nonneg_witness :
  CountdownTimer.elapsed 12 overrun = Ok 9 /\
  CountdownTimer.remaining 12 overrun = Ok 0.
Proof.
  split; [ reflexivity | ].
  exact (proj1 (countdown_remaining_nonneg 12 overrun 9 eq_refl)).
Defined.

(** C5: [elapsed] is never negative.  On every timer reached from
    construction by [start] / [pause] / [resume] / [reset] calls under a
    non-decreasing clock (its start instant, if any, a positive reading),
    [elapsed] returns normally with a result that is at least 0: it is 0 if
    the timer was never started, [_time_paused - _time_started] if it is
    paused, and [now - _time_started] if it is running. *)
Theorem elapsed_cases_nonneg (c now : Z) (t : Timer) :
  reachable c t -> started_positive t = true -> c <= now ->
  exists e,
    CountupTimer.elapsed now t = Ok e /\
    0 <= e /\
    (_time_started t = None -> e = 0) /\
    (forall s, _time_started t = Some s -> CountupTimer.paused t = true ->
       exists p, _time_paused t = Some p /\ e = p - s) /\
    (forall s, _time_started t = Some s -> CountupTimer.paused t = false ->
       e = now - s).
Proof.
  intros Hr Hpos Hle.
  destruct (elapsed_nonneg c now t Hr Hle) as (e & He & Hnn).
  exists e. split; [ exact He | ]. split; [ exact Hnn | ].
  split; [ | split ].
  - intros Hs. rewrite (elapsed_unstarted now t Hs) in He. congruence.
  - intros s Hs Hp.
    pose proof (started_positive_Some s t Hpos Hs) as Hs0.
    destruct (inv_paused c t (reachable_Inv c t Hr) s Hp Hs) as (p & Hq & _).
    exists p. split; [ exact Hq | ].
    rewrite (elapsed_paused now s p t Hs) in He; auto; [ congruence | lia ].
  - intros s Hs Hp.
    pose proof (started_positive_Some s t Hpos Hs) as Hs0.
    rewrite (elapsed_running now s t Hs) in He; auto; [ congruence | lia ].
Qed.

Lemma elapsed_cases_nonneg_witness :
  exists e,
    CountupTimer.elapsed 7 paused_at_4 = Ok e /\
    0 <= e /\
    (_time_started paused_at_4 = None -> e = 0) /\
    (forall s, _time_started paused_at_4 = Some s ->
               CountupTimer.paused paused_at_4 = true ->
       exists p, _time_paused paused_at_4 = Some p /\ e = p - s) /\
    (forall s, _time_started paused_at_4 = Some s ->
               CountupTimer.paused paused_at_4 = false ->
       e = 7 - s).
Proof.
  apply (elapsed_cases_nonneg 4 7 paused_at_4).
  - apply reachable_start_pause. lia.
  - reflexivity.
  - lia.
Defined.

(** C6: [reset(d)] leaves any timer, whatever calls it went through before,
    in the state of a fresh construction with duration [d], which is the
    state [__init__(d)] builds: not started, no pause instant, paused,
    duration [d], zero elapsed. *)
Theorem reset_is_fresh_construction (now d : Z) (t : Timer) :
  CountupTimer.reset d t = CountupTimer.__init__ d /\
  CountupTimer.reset d t = construct_spec d /\
  _time_started (CountupTimer.reset d t) = None /\
  _time_paused (CountupTimer.reset d t) = None /\
  CountupTimer.paused (CountupTimer.reset d t) = true /\
  CountupTimer.duration (CountupTimer.reset d t) = d /\
  CountupTimer.elapsed now (CountupTimer.reset d t) = Ok 0 /\
  (forall history t0,
     run history t0 = Ok t ->
     run (history ++ [(now, Reset d)]) t0 = Ok (CountupTimer.__init__ d)).
Proof.
  repeat split.
  intros history t0 Hrun. rewrite run_app, Hrun. reflexivity.
Qed.

(** C7: [start()] does nothing on a timer that is already started.  For
    every timer whose start instant is present (a positive reading of the
    clock), running or explicitly paused, [start()] leaves every attribute
    as it was: it does not restart the clock and does not clear [_paused].
    Hence, on any timer, [start()] called twice in a row leaves what the
    first call alone leaves. *)
Theorem start_noop_when_started (now now' : Z) (t : Timer) :
  started_positive t = true ->
  (is_None (_time_started t) = false -> CountupTimer.start now t = t) /\
  (0 < now ->
   CountupTimer.start now' (CountupTimer.start now t) =
     CountupTimer.start now t).
Proof.
  intros Hpos. split.
  - destruct (_time_started t) as [s | ] eqn:Hs; [ intros _ | discriminate ].
    pose proof (started_positive_Some s t Hpos Hs) as Hs0.
    apply (start_noop_nonzero now s t Hs). lia.
  - intros Hnow. apply start_twice. lia.
Qed.

Lemma start_noop_when_started_witness :
  CountupTimer.start 9 paused_at_4 = paused_at_4 /\
  CountupTimer.start 9 (CountupTimer.start 1 (CountupTimer.__init__ 10)) =
    CountupTimer.start 1 (CountupTimer.__init__ 10).
Proof.
  split.
  - apply (start_noop_when_started 9 9 paused_at_4); reflexivity.
  - apply (start_noop_when_started 1 9 (CountupTimer.__init__ 10));
      [ reflexivity | lia ].
Defined.

(** C8: [pause()] on a timer that is paused or was never started, and
    [resume()] on a timer that is not paused or was never started, return
    normally and leave every attribute as it was; and on a reachable state no
    state-changing call and no query raises. *)
Theorem pause_resume_noop_no_error (now : Z) (t : Timer) :
  (CountupTimer.paused t = true \/ _time_started t = None ->
   CountupTimer.pause now t = t) /\
  (CountupTimer.paused t = false \/ _time_started t = None ->
   CountupTimer.resume now t = Ok t) /\
  (forall c k, reachable c t -> c <= now ->
     exists t', step now k t = Ok t' /\ reachable now t') /\
  (forall c, reachable c t -> c <= now ->
     raises (CountupTimer.elapsed now t) = false /\
     raises (CountupTimer.expired now t) = false /\
     raises (CountupTimer.remaining now t) = false /\
     raises (CountdownTimer.remaining now t) = false).
Proof.
  split; [ apply pause_noop | ].
  split; [ apply resume_noop | ].
  split.
  - intros c k Hr Hle.
    destruct (step_total c now k t (reachable_Inv c t Hr)) as [t' Ht'].
    exists t'. split; [ exact Ht' | ].
    exact (reach_step c now k t t' Hr Hle Ht').
  - intros c Hr Hle.
    destruct (get_nonneg c now t (reachable_Inv c t Hr) Hle) as (g & Hg & _).
    unfold CountupTimer.expired, CountupTimer.remaining,
      CountdownTimer.remaining, CountdownTimer._get.
    rewrite elapsed_is_get, Hg. simpl. auto.
Qed.

Lemma pause_resume_noop_no_error_witness :
  CountupTimer.pause 7 paused_at_4 = paused_at_4 /\
  CountupTimer.resume 7 (CountupTimer.__init__ 10) = Ok (CountupTimer.__init__ 10) /\
  raises (CountupTimer.elapsed 7 paused_at_4) = false.
Proof.
  split; [ | split ].
  - apply (pause_resume_noop_no_error 7 paused_at_4). left. reflexivity.
  - apply (pause_resume_noop_no_error 7 (CountupTimer.__init__ 10)).
    right. reflexivity.
  - apply (pause_resume_noop_no_error 7 paused_at_4) with (c := 4).
    + apply reachable_start_pause. lia.
    + lia.
Defined.

(** C9: a timer freshly constructed with any duration [d], negative ones
    included, has [elapsed = 0], is paused and not running, has duration
    [d], and is expired exactly when [0 >= d]. *)
Theorem fresh_construction (now d : Z) :
  CountupTimer.elapsed now (CountupTimer.__init__ d) = Ok 0 /\
  CountupTimer.paused (CountupTimer.__init__ d) = true /\
  CountupTimer.running (CountupTimer.__init__ d) = false /\
  CountupTimer.duration (CountupTimer.__init__ d) = d /\
  CountupTimer.expired now (CountupTimer.__init__ d) = Ok (0 >=? d).
Proof.
  repeat split.
Qed.

(** C10: for a [CountdownTimer], [expired] is true exactly when [remaining]
    is 0; the two queries raise together or not at all. *)
Theorem countdown_expired_iff_remaining_zero (now : Z) (t : Timer) :
  (CountdownTimer.expired now t = Ok true <->
   CountdownTimer.remaining now t = Ok 0) /\
  raises (CountdownTimer.expired now t) =
    raises (CountdownTimer.remaining now t).
Proof.
  unfold CountdownTimer.expired, CountupTimer.expired,
    CountdownTimer.remaining, CountdownTimer._get.
  rewrite elapsed_is_get.
  destruct (CountupTimer._get now t) as [g | ]; simpl.
  - split; [ | reflexivity ].
    split; intros [= H]; f_equal.
    + apply Z.geb_le in H. lia.
    + apply Z.geb_le. lia.
  - split; [ | reflexivity ]. split; discriminate.
Qed.

(** ** Further properties of the code *)

(** *** Queries on a paused timer *)

Lemma get_paused_const (now now' : Z) (t : Timer) :
  _paused t = true -> CountupTimer._get now t = CountupTimer._get now' t.
Proof.
  intros Hp. unfold CountupTimer._get. now rewrite Hp.
Qed.

(** X1: while a timer is paused (never started included), no query depends
    on the clock: [elapsed], [expired] and both [remaining] return at any
    instant what they return at any other. *)
Theorem paused_queries_ignore_clock (now now' : Z) (t : Timer) :
  CountupTimer.paused t = true ->
  CountupTimer.elapsed now t = CountupTimer.elapsed now' t /\
  CountupTimer.expired now t = CountupTimer.expired now' t /\
  CountupTimer.remaining now t = CountupTimer.remaining now' t /\
  CountdownTimer.remaining now t = CountdownTimer.remaining now' t.
Proof.
  intros Hp.
  unfold CountupTimer.expired, CountupTimer.elapsed, CountupTimer.remaining,
    CountdownTimer.remaining, CountdownTimer._get.
  rewrite (get_paused_const now now' t Hp). repeat split.
Qed.

Lemma paused_queries_ignore_clock_witness :
  CountupTimer.paused paused_at_4 = true /\
  CountupTimer.elapsed 4 paused_at_4 = CountupTimer.elapsed 1000 paused_at_4.
Proof.
  split; [ reflexivity | ].
  apply (paused_queries_ignore_clock 4 1000 paused_at_4). reflexivity.
Defined.

(** *** Where the code raises *)

(** X2: [resume] raises exactly on a paused, started timer without a pause
    instant; the queries raise exactly on a paused timer whose start instant
    is true (present and not zero) and whose pause instant is missing. *)
Theorem raises_exactly (now : Z) (t : Timer) :
  raises (CountupTimer.resume now t) =
    (_paused t && negb (is_None (_time_started t))
     && is_None (_time_paused t)) /\
  raises (CountupTimer._get now t) =
    (truthy (_time_started t) && _paused t && is_None (_time_paused t)) /\
  raises (CountupTimer.elapsed now t) = raises (CountupTimer._get now t) /\
  raises (CountupTimer.expired now t) = raises (CountupTimer._get now t) /\
  raises (CountupTimer.remaining now t) = raises (CountupTimer._get now t) /\
  raises (CountdownTimer.remaining now t) = raises (CountupTimer._get now t).
Proof.
  unfold CountupTimer.expired, CountupTimer.remaining,
    CountdownTimer.remaining, CountdownTimer._get.
  rewrite elapsed_is_get.
  repeat split;
    try (destruct (CountupTimer._get now t); reflexivity).
  - unfold CountupTimer.resume.
    destruct t as [[s | ] [p | ] el [ | ] d]; reflexivity.
  - unfold CountupTimer._get.
    destruct t as [[s | ] [p | ] el [ | ] d]; simpl;
      try destruct (s =? 0); reflexivity.
Qed.

Lemma pause_recorded_step (now : Z) (k : call) (t : Timer) :
  pause_recorded t = true ->
  exists t', step now k t = Ok t' /\ pause_recorded t' = true.
Proof.
  unfold pause_recorded. intros H.
  destruct k; simpl.
  - eexists. split; [ reflexivity | ].
    unfold CountupTimer.start.
    destruct t as [[s | ] [p | ] el [ | ] d]; simpl in *;
      try destruct (s =? 0); simpl; auto.
  - eexists. split; [ reflexivity | ].
    unfold CountupTimer.pause.
    destruct t as [[s | ] [p | ] el [ | ] d]; simpl in *; auto.
  - unfold CountupTimer.resume.
    destruct t as [[s | ] [p | ] el [ | ] d]; simpl in *;
      try discriminate; eexists; split; reflexivity.
  - eexists. split; reflexivity.
Qed.

Lemma pause_recorded_get (now : Z) (t : Timer) :
  pause_recorded t = true -> raises (CountupTimer._get now t) = false.
Proof.
  unfold pause_recorded, CountupTimer._get.
  destruct t as [[s | ] [p | ] el [ | ] d]; simpl;
    try destruct (s =? 0); simpl; auto; discriminate.
Qed.

Lemma pause_recorded_run (history : list (Z * call)) (t : Timer) :
  pause_recorded t = true ->
  exists t', run history t = Ok t' /\ pause_recorded t' = true.
Proof.
  revert t. induction history as [ | [now k] rest IH]; intros t H.
  - exists t. split; [ reflexivity | exact H ].
  - destruct (pause_recorded_step now k t H) as (t1 & E1 & H1).
    simpl. rewrite E1. simpl. apply IH, H1.
Qed.

(** X3: whatever the clock does (no order of the readings is assumed), any
    sequence of [start], [pause], [resume] and [reset] calls on a freshly
    constructed timer runs to its end without raising, and no query raises
    on the timer it leaves. *)
Theorem fresh_timer_never_raises
  (history : list (Z * call)) (d now : Z) :
  exists t,
    run history (CountupTimer.__init__ d) = Ok t /\
    raises (CountupTimer.elapsed now t) = false /\
    raises (CountupTimer.expired now t) = false /\
    raises (CountupTimer.remaining now t) = false /\
    raises (CountdownTimer.remaining now t) = false.
Proof.
  destruct (pause_recorded_run history (CountupTimer.__init__ d) eq_refl)
    as (t & Hrun & Hrec).
  exists t. split; [ exact Hrun | ].
  pose proof (pause_recorded_get now t Hrec) as Hg.
  unfold CountupTimer.expired, CountupTimer.remaining,
    CountdownTimer.remaining, CountdownTimer._get.
  rewrite elapsed_is_get.
  destruct (CountupTimer._get now t); [ repeat split | discriminate ].
Qed.

(** *** What [start], [pause] and [resume] leave alone *)

Lemma step_keeps_duration (now : Z) (k : call) (t t' : Timer) :
  is_reset k = false -> step now k t = Ok t' ->
  _duration t' = _duration t /\ _elapsed t' = _elapsed t.
Proof.
  intros Hk. destruct k; simpl; try discriminate.
  - intros [= <-]. unfold CountupTimer.start.
    destruct (truthy (_time_started t)); split; reflexivity.
  - intros [= <-]. unfold CountupTimer.pause.
    destruct (_paused t || is_None (_time_started t)); split; reflexivity.
  - unfold CountupTimer.resume.
    destruct t as [[s | ] [p | ] el [ | ] d]; simpl;
      try discriminate; intros [= <-]; split; reflexivity.
Qed.

(** X4: [duration] is changed by [reset] alone: after any sequence of
    [start], [pause] and [resume] calls the timer has the duration (and the
    [_elapsed] attribute) it had before. *)
Theorem duration_changed_by_reset_only
  (history : list (Z * call)) (t t' : Timer) :
  no_reset history = true ->
  run history t = Ok t' ->
  CountupTimer.duration t' = CountupTimer.duration t /\
  _elapsed t' = _elapsed t.
Proof.
  unfold CountupTimer.duration.
  revert t. induction history as [ | [now k] rest IH]; intros t Hnr; simpl.
  - intros [= <-]. split; reflexivity.
  - simpl in Hnr. apply andb_true_iff in Hnr. destruct Hnr as [Hk Hnr].
    apply negb_true_iff in Hk.
    destruct (step now k t) as [t1 | ] eqn:E1; simpl; [ | discriminate ].
    intros Hrun. destruct (IH t1 Hnr Hrun) as [Hd He].
    destruct (step_keeps_duration now k t t1 Hk E1) as [Hd1 He1].
    split; congruence.
Qed.

Lemma duration_changed_by_reset_only_witness :
  CountupTimer.duration paused_at_4 = 10.
Proof.
  change 10 with (CountupTimer.duration (CountupTimer.__init__ 10)).
  apply (duration_changed_by_reset_only
           [(1, Start); (4, Pause)] (CountupTimer.__init__ 10) paused_at_4);
    reflexivity.
Defined.

(** *** Repeated calls *)

(** X5: [pause] and [resume] are idempotent on every state: a second
    [pause], at whatever instant, changes nothing after the first, and a
    second [resume] changes nothing after a first that returned. *)
Theorem pause_resume_idempotent (now now' : Z) (t : Timer) :
  CountupTimer.pause now' (CountupTimer.pause now t) = CountupTimer.pause now t /\
  (forall t', CountupTimer.resume now t = Ok t' ->
              CountupTimer.resume now' t' = Ok t').
Proof.
  split.
  - unfold CountupTimer.pause.
    destruct t as [[s | ] tp el [ | ] d]; reflexivity.
  - intros t'. unfold CountupTimer.resume.
    destruct t as [[s | ] [p | ] el [ | ] d]; simpl;
      try discriminate; intros [= <-]; reflexivity.
Qed.

(** *** [remaining] on reachable states *)

Lemma countup_remaining_of_get (now g : Z) (t : Timer) :
  CountupTimer._get now t = Ok g -> 0 <= g ->
  CountupTimer.remaining now t = Ok (_duration t - g).
Proof.
  intros Hg Hpos. unfold CountupTimer.remaining, CountupTimer.duration.
  rewrite Hg. simpl.
  assert (H : (_duration t - g <=? _duration t) = true)
    by (apply Z.leb_le; lia).
  now rewrite H.
Qed.

(** X6: on a timer reached from construction under a non-decreasing clock
    the clamp of [CountupTimer.remaining] never fires: [remaining] is
    [duration - elapsed], of either sign, and [CountdownTimer.remaining] on
    the same state is that value floored at 0. *)
Theorem countup_remaining_is_difference (c now : Z) (t : Timer) :
  reachable c t -> c <= now ->
  exists e r,
    CountupTimer.elapsed now t = Ok e /\
    CountupTimer.remaining now t = Ok r /\
    r = CountupTimer.duration t - e /\
    CountdownTimer.remaining now t = Ok (Z.max r 0).
Proof.
  intros Hr Hle.
  destruct (get_nonneg c now t (reachable_Inv c t Hr) Hle) as (g & Hg & Hpos).
  exists g, (_duration t - g). rewrite elapsed_is_get.
  repeat split; auto.
  - now apply countup_remaining_of_get.
  - unfold CountdownTimer.remaining, CountdownTimer._get. now rewrite Hg.
Qed.

Lemma countup_remaining_is_difference_witness :
  exists e r,
    CountupTimer.elapsed 12 overrun = Ok e /\
    CountupTimer.remaining 12 overrun = Ok r /\
    r = CountupTimer.duration overrun - e /\
    CountdownTimer.remaining 12 overrun = Ok (Z.max r 0).
Proof.
  apply (countup_remaining_is_difference 10 12 overrun).
  - apply reachable_start_pause. lia.
  - lia.
Defined.

(** X7: on a timer reached from construction under a non-decreasing clock, a
    [CountupTimer] is expired exactly when its [remaining] is zero or
    negative. *)
Theorem countup_expired_iff_remaining_nonpos (c now : Z) (t : Timer) :
  reachable c t -> c <= now ->
  exists b r,
    CountupTimer.expired now t = Ok b /\
    CountupTimer.remaining now t = Ok r /\
    (b = true <-> r <= 0).
Proof.
  intros Hr Hle.
  destruct (get_nonneg c now t (reachable_Inv c t Hr) Hle) as (g & Hg & Hpos).
  exists (g >=? _duration t), (_duration t - g).
  unfold CountupTimer.expired. rewrite elapsed_is_get, Hg. simpl.
  repeat split.
  - now apply countup_remaining_of_get.
  - intros H. apply Z.geb_le in H. lia.
  - intros H. apply Z.geb_le. lia.
Qed.

Lemma countup_expired_iff_remaining_nonpos_witness :
  exists b r,
    CountupTimer.expired 12 overrun = Ok b /\
    CountupTimer.remaining 12 overrun = Ok r /\
    (b = true <-> r <= 0).
Proof.
  apply (countup_expired_iff_remaining_nonpos 10 12 overrun).
  - apply reachable_start_pause. lia.
  - lia.
Defined.

(** *** The start instant *)

(** X8: under a non-decreasing clock, [start], [pause] and [resume] never
    remove the start instant of a reachable timer and never move it back:
    after the call there is a start instant, and it is the old one or a
    later one. *)
Theorem start_instant_moves_forward
  (c now s : Z) (k : call) (t t' : Timer) :
  reachable c t -> c <= now ->
  is_reset k = false ->
  step now k t = Ok t' ->
  _time_started t = Some s ->
  exists s', _time_started t' = Some s' /\ s <= s'.
Proof.
  intros Hr Hle Hk Hstep Hs.
  destruct (reachable_Inv c t Hr) as [Hu Hst Hp He].
  specialize (Hst s Hs).
  destruct k; simpl in Hstep; try discriminate.
  - injection Hstep as <-. unfold CountupTimer.start. rewrite Hs. simpl.
    destruct (s =? 0); simpl;
      eexists; (split; [ reflexivity || exact Hs | lia ]).
  - injection Hstep as <-. unfold CountupTimer.pause. rewrite Hs. simpl.
    destruct (_paused t); simpl;
      eexists; (split; [ reflexivity || exact Hs | lia ]).
  - unfold CountupTimer.resume in Hstep. rewrite Hs in Hstep.
    destruct (_paused t) eqn:Hpa; simpl in Hstep.
    + destruct (Hp s eq_refl Hs) as (p & Hq & Hsp & Hpc).
      rewrite Hq in Hstep. simpl in Hstep. injection Hstep as <-. simpl.
      eexists; split; [ reflexivity | lia ].
    + injection Hstep as <-. exists s. split; [ exact Hs | lia ].
Qed.

Lemma start_instant_moves_forward_witness :
  exists s', _time_started
               {| _time_started := Some (1 + (9 - 4));
                  _time_paused := Some 4;
                  _elapsed := 0;
                  _paused := false;
                  _duration := 10 |} = Some s' /\ 1 <= s'.
Proof.
  apply (start_instant_moves_forward 4 9 1 Resume paused_at_4).
  - apply reachable_start_pause. lia.
  - lia.
  - reflexivity.
  - reflexivity.
  - reflexivity.
Defined.

(** *** Positive clocks *)

(** Rewrites the zero tests of the goal that arithmetic decides. *)
Ltac zero_tests :=
  repeat match goal with
         | |- context [?x =? 0] =>
             let H := fresh in
             assert (H : (x =? 0) = false) by (apply Z.eqb_neq; lia);
             rewrite H; clear H
         end.

Lemma started_positive_step (c now : Z) (k : call) (t t' : Timer) :
  Inv c t -> started_positive t = true ->
  c <= now -> 0 < now ->
  step now k t = Ok t' ->
  started_positive t' = true.
Proof.
  intros [Hu Hs Hp He] Hpos Hle Hnow. unfold started_positive in *.
  destruct t as [[s | ] tp el pa d]; simpl in *.
  - apply Z.ltb_lt in Hpos.
    destruct k; simpl; unfold CountupTimer.start, CountupTimer.pause,
      CountupTimer.resume; simpl.
    + zero_tests. simpl. intros [= <-]. simpl. now apply Z.ltb_lt.
    + destruct pa; simpl; intros [= <-]; simpl; now apply Z.ltb_lt.
    + destruct pa; simpl.
      * destruct (Hp s eq_refl eq_refl) as (p & -> & Hsp & Hpc). simpl.
        intros [= <-]. simpl. apply Z.ltb_lt. lia.
      * intros [= <-]. simpl. now apply Z.ltb_lt.
    + intros [= <-]. reflexivity.
  - destruct k; simpl; unfold CountupTimer.start, CountupTimer.pause,
      CountupTimer.resume; simpl.
    + intros [= <-]. simpl. now apply Z.ltb_lt.
    + rewrite orb_true_r. intros [= <-]. reflexivity.
    + rewrite orb_true_r. intros [= <-]. reflexivity.
    + intros [= <-]. reflexivity.
Qed.

(** A timer built and driven under positive, non-decreasing clock readings
    has a positive start instant. *)
Lemma run_started_positive
  (history : list (Z * call)) (c : Z) (t t' : Timer) :
  reachable c t -> started_positive t = true ->
  0 < c -> nondecreasing c history = true ->
  run history t = Ok t' ->
  started_positive t' = true.
Proof.
  revert c t. induction history as [ | [now k] rest IH];
    intros c t Hr Hpos Hc Hnd; simpl.
  - now intros [= <-].
  - simpl in Hnd. apply andb_true_iff in Hnd. destruct Hnd as [Hle Hnd].
    apply Z.leb_le in Hle.
    destruct (step now k t) as [t1 | ] eqn:E1; simpl; [ | discriminate ].
    apply (IH now t1); auto; try lia.
    + exact (reach_step c now k t t1 Hr Hle E1).
    + apply (started_positive_step c now k t t1); auto; try lia.
      now apply reachable_Inv.
Qed.

(** X9: under a non-decreasing clock and with a positive start instant,
    [elapsed] never goes back across [start], [pause] or [resume]: its
    reading after the call is at least any reading taken before it; so a
    timer that has expired stays expired until it is reset. *)
Theorem elapsed_never_decreases
  (c now now' : Z) (k : call) (t t' : Timer) :
  reachable c t -> started_positive t = true ->
  c <= now -> now <= now' ->
  is_reset k = false ->
  step now' k t = Ok t' ->
  (exists e e',
     CountupTimer.elapsed now t = Ok e /\
     CountupTimer.elapsed now' t' = Ok e' /\
     e <= e') /\
  (CountupTimer.expired now t = Ok true ->
   CountupTimer.expired now' t' = Ok true).
Proof.
  intros Hr Hpos Hle Hle' Hk Hstep.
  assert (Hd : _duration t' = _duration t)
    by exact (proj1 (step_keeps_duration now' k t t' Hk Hstep)).
  assert (Hmono : exists e e',
             CountupTimer.elapsed now t = Ok e /\
             CountupTimer.elapsed now' t' = Ok e' /\ e <= e').
  { destruct (reachable_Inv c t Hr) as [Hu Hs Hp He].
    clear Hd. rewrite !elapsed_is_get. unfold started_positive in Hpos.
    unfold CountupTimer._get.
    destruct t as [[s | ] tp el pa d]; simpl in *.
    - apply Z.ltb_lt in Hpos. specialize (Hs s eq_refl).
      destruct k; simpl in Hstep; try discriminate;
        unfold CountupTimer.start, CountupTimer.pause,
          CountupTimer.resume in Hstep; simpl in Hstep.
      + revert Hstep. zero_tests. simpl. intros [= <-]. simpl. zero_tests.
        simpl. destruct pa.
        * destruct (Hp s eq_refl eq_refl) as (p & -> & _). simpl.
          do 2 eexists. repeat split. lia.
        * simpl. do 2 eexists. repeat split. lia.
      + destruct pa; simpl in Hstep; injection Hstep as <-; simpl;
          zero_tests; simpl.
        * destruct (Hp s eq_refl eq_refl) as (p & -> & _). simpl.
          do 2 eexists. repeat split. lia.
        * do 2 eexists. repeat split. lia.
      + destruct pa; simpl in Hstep.
        * destruct (Hp s eq_refl eq_refl) as (p & -> & Hsp & Hpc).
          simpl in Hstep. injection Hstep as <-. simpl. zero_tests. simpl.
          do 2 eexists. repeat split. lia.
        * injection Hstep as <-. simpl. zero_tests. simpl.
          do 2 eexists. repeat split. lia.
    - exists 0. destruct k; simpl in Hstep; try discriminate;
        unfold CountupTimer.start, CountupTimer.pause,
          CountupTimer.resume in Hstep; simpl in Hstep;
        rewrite ?orb_true_r in Hstep; injection Hstep as <-; simpl.
      + destruct (now' =? 0); simpl; eexists; repeat split; lia.
      + exists 0. repeat split. lia.
      + exists 0. repeat split. lia. }
  split; [ exact Hmono | ].
  destruct Hmono as (e & e' & He & He' & Hee).
  unfold CountupTimer.expired. rewrite He, He', Hd. simpl.
  intros [= H]. f_equal. apply Z.geb_le in H. apply Z.geb_le. lia.
Qed.

Lemma elapsed_never_decreases_witness :
  exists e e',
    CountupTimer.elapsed 6 paused_at_4 = Ok e /\
    CountupTimer.elapsed 9
      {| _time_started := Some (1 + (9 - 4));
         _time_paused := Some 4;
         _elapsed := 0;
         _paused := false;
         _duration := 10 |} = Ok e' /\
    e <= e'.
Proof.
  apply (elapsed_never_decreases 4 6 9 Resume paused_at_4).
  - apply reachable_start_pause. lia.
  - reflexivity.
  - lia.
  - lia.
  - reflexivity.
  - reflexivity.
Defined.

(** *** [elapsed] against the docstring of [_get] *)

Lemma Sim_init (c d : Z) : Sim c ledger_init (CountupTimer.__init__ d).
Proof.
  unfold Sim. simpl. repeat split.
Qed.

Lemma Sim_step (c now : Z) (k : call) (g : Ledger) (t : Timer) :
  Sim c g t -> c <= now -> 0 < now ->
  exists t', step now k t = Ok t' /\ Sim now (ledger_step now k g) t'.
Proof.
  unfold Sim. intros H Hle Hnow.
  destruct g as [[s0 | ] [q | ] tot]; simpl in *.
  - (* in a pause *)
    destruct H as (Hs0 & Htot & Hst & Hpa & Hq & Hqc).
    destruct t as [st tp el pa d]; simpl in *. subst st pa tp.
    destruct k; simpl; unfold CountupTimer.start, CountupTimer.pause,
      CountupTimer.resume; simpl; zero_tests; simpl;
      eexists; (split; [ reflexivity | ]); simpl.
    + repeat split; auto; lia.
    + repeat split; auto; lia.
    + repeat split; try lia. f_equal. lia.
    + repeat split.
  - (* running *)
    destruct H as (Hs0 & Htot & Hst & Hpa).
    destruct t as [st tp el pa d]; simpl in *. subst st pa.
    destruct k; simpl; unfold CountupTimer.start, CountupTimer.pause,
      CountupTimer.resume; simpl; zero_tests; simpl;
      eexists; (split; [ reflexivity | ]); simpl.
    + repeat split; auto.
    + repeat split; auto; lia.
    + repeat split; auto.
    + repeat split.
  - destruct H as (_ & _ & H). discriminate.
  - (* never started *)
    destruct H as (Hst & Hpa & _).
    destruct t as [st tp el pa d]; simpl in *. subst st pa.
    destruct k; simpl; unfold CountupTimer.start, CountupTimer.pause,
      CountupTimer.resume; simpl;
      eexists; (split; [ reflexivity | ]); simpl.
    + repeat split; try lia. f_equal. lia.
    + repeat split.
    + repeat split.
    + repeat split.
Qed.

Lemma Sim_run (history : list (Z * call)) (c : Z) (g : Ledger) (t : Timer) :
  Sim c g t -> 0 < c -> nondecreasing c history = true ->
  exists t',
    run history t = Ok t' /\
    Sim (last_reading c history) (ledger_run history g) t'.
Proof.
  revert c g t. induction history as [ | [now k] rest IH];
    intros c g t HS Hc Hnd.
  - exists t. split; [ reflexivity | exact HS ].
  - simpl in Hnd. apply andb_true_iff in Hnd. destruct Hnd as [Hle Hnd].
    apply Z.leb_le in Hle.
    destruct (Sim_step c now k g t HS Hle) as (t1 & E1 & HS1); [ lia | ].
    simpl. rewrite E1. simpl. apply IH; auto. lia.
Qed.

Lemma Sim_queries (c now : Z) (g : Ledger) (t : Timer) :
  Sim c g t ->
  CountupTimer.elapsed now t = Ok (ledger_elapsed now g) /\
  CountupTimer.paused t = ledger_paused g.
Proof.
  unfold Sim, ledger_elapsed, ledger_paused, CountupTimer.paused.
  rewrite elapsed_is_get. unfold CountupTimer._get.
  destruct g as [[s0 | ] [q | ] tot]; simpl.
  - intros (Hs0 & Htot & -> & -> & -> & _). simpl. zero_tests. simpl.
    split; [ f_equal; lia | reflexivity ].
  - intros (Hs0 & Htot & -> & ->). simpl. zero_tests. simpl.
    split; [ f_equal; lia | reflexivity ].
  - intros (_ & _ & H). discriminate.
  - intros (-> & -> & _). split; reflexivity.
Qed.

(** X10: [elapsed] is what the docstring of [_get] says.  After any sequence
    of calls on a freshly constructed timer, made under positive,
    non-decreasing clock readings, [elapsed] at any instant is the time since
    the first start of the current run (since the last [reset]) minus all the
    time spent paused, over any number of pause/resume cycles; and [paused]
    is true exactly when the timer was never started or is in a pause. *)
Theorem elapsed_is_time_started_minus_paused
  (history : list (Z * call)) (c d now : Z) :
  0 < c ->
  nondecreasing c history = true ->
  exists t,
    run history (CountupTimer.__init__ d) = Ok t /\
    CountupTimer.elapsed now t =
      Ok (ledger_elapsed now (ledger_run history ledger_init)) /\
    CountupTimer.paused t = ledger_paused (ledger_run history ledger_init).
Proof.
  intros Hc Hnd.
  destruct (Sim_run history c ledger_init (CountupTimer.__init__ d)
              (Sim_init c d) Hc Hnd) as (t & Hrun & HS).
  exists t. split; [ exact Hrun | ].
  exact (Sim_queries _ now _ t HS).
Qed.

Lemma elapsed_is_time_started_minus_paused_witness :
  exists t,
    run [(1, Start); (4, Pause); (9, Resume); (11, Pause); (20, Resume)]
      (CountupTimer.__init__ 10) = Ok t /\
    CountupTimer.elapsed 21 t = Ok 6 /\
    CountupTimer.paused t = false.
Proof.
  apply (elapsed_is_time_started_minus_paused
           [(1, Start); (4, Pause); (9, Resume); (11, Pause); (20, Resume)]
           1 10 21).
  - lia.
  - reflexivity.
Defined.

(** X11: one pause in a run.  A timer started at a positive instant [s],
    paused [a] later, resumed after a wait [w >= 0] and read [b] after the
    resume has [elapsed = a + b], whatever the wait; it is running, and a
    [CountdownTimer] then has [remaining = max (duration - (a + b)) 0]. *)
Theorem one_pause_cycle (d s a w b : Z) :
  0 < s -> 0 <= w ->
  exists t,
    run [(s, Start); (s + a, Pause); (s + a + w, Resume)]
      (CountupTimer.__init__ d) = Ok t /\
    CountupTimer.running t = true /\
    CountupTimer.elapsed (s + a + w + b) t = Ok (a + b) /\
    CountupTimer.expired (s + a + w + b) t = Ok (a + b >=? d) /\
    CountdownTimer.remaining (s + a + w + b) t = Ok (Z.max (d - (a + b)) 0).
Proof.
  intros Hs Hw. eexists. split; [ reflexivity | ].
  assert (He : CountupTimer.elapsed (s + a + w + b)
                 {| _time_started := Some (s + (s + a + w - (s + a)));
                    _time_paused := Some (s + a);
                    _elapsed := 0;
                    _paused := false;
                    _duration := d |} = Ok (a + b)).
  { rewrite elapsed_is_get. unfold CountupTimer._get. simpl.
    zero_tests. simpl. f_equal. lia. }
  split; [ reflexivity | ].
  split; [ exact He | ].
  split.
  - unfold CountupTimer.expired. cbv zeta.
    match goal with |- bind ?x _ = _ => change x with
      (CountupTimer.elapsed (s + a + w + b)
         {| _time_started := Some (s + (s + a + w - (s + a)));
            _time_paused := Some (s + a);
            _elapsed := 0;
            _paused := false;
            _duration := d |}) end.
    rewrite He. reflexivity.
  - unfold CountdownTimer.remaining, CountdownTimer._get.
    rewrite elapsed_is_get in He.
    match goal with |- bind ?x _ = _ => change x with
      (CountupTimer._get (s + a + w + b)
         {| _time_started := Some (s + (s + a + w - (s + a)));
            _time_paused := Some (s + a);
            _elapsed := 0;
            _paused := false;
            _duration := d |}) end.
    rewrite He. reflexivity.
Qed.

Lemma one_pause_cycle_witness :
  exists t,
    run [(100, Start); (103, Pause); (150, Resume)]
      (CountupTimer.__init__ 10) = Ok t /\
    CountupTimer.running t = true /\
    CountupTimer.elapsed 152 t = Ok 5 /\
    CountupTimer.expired 152 t = Ok false /\
    CountdownTimer.remaining 152 t = Ok 5.
Proof.
  apply (one_pause_cycle 10 100 3 47 2); lia.
Defined.

(** *** The instant of expiry *)

(** X12: a running timer whose start instant [s] is not zero expires at the
    instant [s + duration]: [expired] is true exactly from that reading of
    the clock on, and [CountdownTimer.remaining] is the time left to it,
    floored at 0. *)
Theorem running_timer_expires_at (now s : Z) (t : Timer) :
  _time_started t = Some s -> s <> 0 ->
  CountupTimer.running t = true ->
  CountupTimer.expired now t = Ok (s + CountupTimer.duration t <=? now) /\
  CountdownTimer.remaining now t =
    Ok (Z.max (s + CountupTimer.duration t - now) 0).
Proof.
  unfold CountupTimer.running, CountupTimer.duration.
  intros Hs Hnz Hrun. apply negb_true_iff in Hrun.
  pose proof (elapsed_running now s t Hs Hnz Hrun) as He.
  split.
  - unfold CountupTimer.expired. rewrite He. simpl. f_equal.
    rewrite Z.geb_leb.
    destruct (Z.leb_spec (_duration t) (now - s));
      destruct (Z.leb_spec (s + _duration t) now); reflexivity || lia.
  - rewrite elapsed_is_get in He.
    unfold CountdownTimer.remaining, CountdownTimer._get.
    rewrite He. simpl. f_equal. f_equal. lia.
Qed.

Lemma running_timer_expires_at_witness :
  CountupTimer.expired 11 (CountupTimer.start 1 (CountupTimer.__init__ 10))
    = Ok true /\
  CountdownTimer.remaining 7 (CountupTimer.start 1 (CountupTimer.__init__ 10))
    = Ok 4.
Proof.
  split.
  - apply (running_timer_expires_at 11 1
             (CountupTimer.start 1 (CountupTimer.__init__ 10)));
      [ reflexivity | lia | reflexivity ].
  - apply (running_timer_expires_at 7 1
             (CountupTimer.start 1 (CountupTimer.__init__ 10)));
      [ reflexivity | lia | reflexivity ].
Defined.
